(** * Trinity e-mail utilities: a shallow embedding and its properties

    The development follows the three scripts of the repository:
    - [send_email.py]        class [TrinityEmailSender] ([load_config],
                             [send_email], [send_notification], [send_report]);
    - [quick_email_setup.py] [create_email_config];
    - [setup_email.py]       [setup_email_config].

    Python values are modelled on code points, effects (file system, standard
    streams, clock, SMTP session, raised exceptions) by a state-and-exception
    monad over an explicit world. *)

From stdpp Require Import gmap list strings pretty.

Local Open Scope N_scope.

(** ** Python strings

    A Python [str] is a sequence of Unicode code points; [len] is the number of
    code points.  It is modelled as [list N]. *)

Abbreviation str := (list N).

(** Source literals are written as they appear in the scripts and decoded from
    the UTF-8 bytes of the Rocq literal. *)
Fixpoint utf8_decode (pending : nat) (acc : N) (bs : list N) : str :=
  match bs with
  | [] => []
  | b :: bs' =>
      match pending with
      | O =>
          if b <? 128 then b :: utf8_decode 0 0 bs'
          else if b <? 224 then utf8_decode 1 (b - 192) bs'
          else if b <? 240 then utf8_decode 2 (b - 224) bs'
          else utf8_decode 3 (b - 240) bs'
      | S O => (acc * 64 + (b - 128)) :: utf8_decode 0 0 bs'
      | S p => utf8_decode p (acc * 64 + (b - 128)) bs'
      end
  end.

Definition lit (s : string) : str :=
  utf8_decode 0 0 (map Ascii.N_of_ascii (String.list_ascii_of_string s)).

Arguments lit : simpl never.

Definition nl : str := [10].
Definition star : N := 42.

(** ["c" * n] *)
Definition str_mul (c : N) (n : nat) : str := replicate n c.

(** [str.isspace] on one code point: the characters [str.strip()] removes. *)
Definition is_space (c : N) : bool :=
  ((9 <=? c) && (c <=? 13)) || ((28 <=? c) && (c <=? 32))
  || (c =? 133) || (c =? 160) || (c =? 5760)
  || ((8192 <=? c) && (c <=? 8202))
  || (c =? 8232) || (c =? 8233) || (c =? 8239) || (c =? 8287) || (c =? 12288).

Fixpoint lstrip (s : str) : str :=
  match s with
  | c :: s' => if is_space c then lstrip s' else s
  | [] => []
  end.

(** [s.strip()] *)
Definition strip (s : str) : str := rev (lstrip (rev (lstrip s))).

(** [str.lower] on one code point.  Exact on U+0000..U+00FF (ASCII and
    Latin-1); code points beyond are left unchanged. *)
Definition lower_cp (c : N) : N :=
  if (65 <=? c) && (c <=? 90) then c + 32
  else if (192 <=? c) && (c <=? 222) && negb (c =? 215) then c + 32
  else c.

Definition lower (s : str) : str := map lower_cp s.

Fixpoint starts_with (p s : str) : bool :=
  match p, s with
  | [], _ => true
  | _ :: _, [] => false
  | a :: p', b :: s' => (a =? b) && starts_with p' s'
  end.

(** [needle in hay] *)
Fixpoint contains (needle hay : str) : bool :=
  starts_with needle hay ||
  match hay with
  | [] => false
  | _ :: hay' => contains needle hay'
  end.

Definition str_eqb (a b : str) : bool := bool_decide (a = b).

(** [repr] of a [str] made of printable characters other than the quote and
    the backslash (the configuration keys, and the text quoted in the message
    of a failed [int()]). *)
Definition py_repr (s : str) : str := lit "'" ++ s ++ lit "'".

(** ** Values

    [VObj] stands for any other object (a float, a list, a nested mapping),
    known through what [str()] shows of it. *)
Inductive value :=
| VNone
| VBool (b : bool)
| VInt (z : Z)
| VStr (s : str)
| VObj (shown : str).

Definition py_str (v : value) : str :=
  match v with
  | VNone => lit "None"
  | VBool true => lit "True"
  | VBool false => lit "False"
  | VInt z => lit (pretty z)
  | VStr s => s
  | VObj shown => shown
  end.

(** A [dict] with string keys keeps its insertion order and has one entry per
    key. *)
Abbreviation dict := (list (str * value)).

Fixpoint dict_get {A} (k : str) (d : list (str * A)) : option A :=
  match d with
  | [] => None
  | (k', v) :: d' => if str_eqb k k' then Some v else dict_get k d'
  end.

(** What [json.load] may hand back. *)
Inductive pyobj :=
| PDict (d : dict)
| PVal (v : value).

(** [int(s)] in base 10: surrounding white space, an optional sign, ASCII
    digits, single underscores between digits.  Decimal digits of other
    scripts are not modelled (they are read as a failed conversion). *)
Definition digit_val (c : N) : option Z :=
  if (48 <=? c) && (c <=? 57) then Some (Z.of_N (c - 48)) else None.

Fixpoint int_digits (acc : Z) (prev_digit : bool) (s : str) : option Z :=
  match s with
  | [] => if prev_digit then Some acc else None
  | c :: s' =>
      if c =? 95 then
        if prev_digit then int_digits acc false s' else None
      else
        match digit_val c with
        | Some d => int_digits (acc * 10 + d)%Z true s'
        | None => None
        end
  end.

Definition py_int (s : str) : option Z :=
  match strip s with
  | 45 :: ds => Z.opp <$> int_digits 0 false ds
  | 43 :: ds => int_digits 0 false ds
  | ds => int_digits 0 false ds
  end.

(** [os.path.basename] *)
Fixpoint basename_from (last : str) (s : str) : str :=
  match s with
  | [] => last
  | c :: s' => if c =? 47 then basename_from s' s' else basename_from last s'
  end.

Definition basename (p : str) : str := basename_from p p.

(** ** Exceptions

    Every class below derives from [Exception]; [exn_text] is [str(e)]. *)
Inductive exn_class :=
| KeyError
| AttributeError
| TypeError
| ValueError
| EOFError
| FileNotFoundError
| IsADirectoryError
| PermissionError
| LibraryError (name : str).

Record exn := Exn { exn_cls : exn_class; exn_text : str }.

(** ** The MIME message built by [send_email] *)
Inductive part :=
| TextPart (subtype payload : str)
| AttachmentPart (payload disposition : str).

Record message := Message {
  msg_from : value;
  msg_to : value;
  msg_subject : str;
  msg_parts : list part
}.

Definition is_attachment (p : part) : bool :=
  match p with AttachmentPart _ _ => true | TextPart _ _ => false end.

(** ** The world

    Files carry their text and their permission bits.  The process owns the
    files it meets and is not the superuser, so opening for reading needs the
    owner-read bit (0o400) and opening for writing the owner-write bit
    (0o200). *)
Inductive node :=
| File (content : str) (mode : N)
| Dir.

Inductive wire_event :=
| Connect (host port : value)
| StartTLS
| Login (user password : value)
| SendMail (from_addr to_addr : value) (msg : message)
| Quit.

Record World := mkWorld {
  fs : gmap (list N) node;      (* path -> node *)
  stdout : list (list N);       (* chunks written to standard output *)
  stdin : list (list N);        (* lines still to be typed by the operator *)
  wire : list wire_event;       (* what was put on the SMTP connection *)
  ticks : nat                   (* how often the clock was read *)
}.

Record datetime := mkDatetime {
  year : N; month : N; day : N; hour : N; minute : N; second : N
}.

(** The SMTP relay and the TLS library: for each step, the exception it
    raises, if any. *)
Record SmtpServer := mkSmtp {
  tls_context : option exn;                        (* ssl.create_default_context() *)
  connect : value -> value -> option exn;          (* smtplib.SMTP(host, port) *)
  starttls : option exn;                           (* server.starttls(context) *)
  login : value -> value -> option exn;            (* server.login(user, password) *)
  sendmail : value -> value -> message -> option exn;
                                   (* message.as_string() and server.sendmail *)
  quit : option exn                                (* leaving the with-block *)
}.

(** What surrounds a run and does not change during it. *)
Record Env := mkEnv {
  umask : N;
  cwd_writable : bool;
  clock : nat -> datetime;                 (* the n-th reading of local time *)
  json_loads : list N -> exn + pyobj;      (* json.load on a file's text *)
  json_dumps : nat -> list (list N * value) -> list N;
                                           (* json.dumps(obj, indent=n) *)
  smtp : SmtpServer
}.

Definition owner_readable (mode : N) : bool := N.testbit mode 8.
Definition owner_writable (mode : N) : bool := N.testbit mode 7.

Definition mode_600 : N := 384.     (* 0o600 *)
Definition mode_666 : N := 438.     (* 0o666 *)

(** ** The monad: state and exceptions *)
Inductive result (A : Type) :=
| Ret (a : A)
| Raise (e : exn).
Arguments Ret {A} a.
Arguments Raise {A} e.

Definition M (A : Type) : Type := World -> result A * World.

Global Instance M_ret : MRet M := λ A a w, (Ret a, w).

Global Instance M_bind : MBind M := λ A B f m w,
  match m w with
  | (Ret a, w') => f a w'
  | (Raise e, w') => (Raise e, w')
  end.

Definition raise {A} (e : exn) : M A := λ w, (Raise e, w).

(** [try: body  except Exception as e: handler(e)] *)
Definition try_except {A} (body : M A) (handler : exn -> M A) : M A := λ w,
  match body w with
  | (Ret a, w') => (Ret a, w')
  | (Raise e, w') => handler e w'
  end.

Definition raise_if (o : option exn) : M unit :=
  match o with
  | Some e => raise e
  | None => mret tt
  end.

Definition set_fs (f : gmap (list N) node) (w : World) : World :=
  mkWorld f (stdout w) (stdin w) (wire w) (ticks w).

Definition write_stdout (s : str) : M unit := λ w,
  (Ret tt, mkWorld (fs w) (stdout w ++ [s]) (stdin w) (wire w) (ticks w)).

(** [print(s)] *)
Definition print (s : str) : M unit := write_stdout (s ++ nl).

Definition read_line : M str := λ w,
  match stdin w with
  | [] => (Raise (Exn EOFError (lit "EOF when reading a line")), w)
  | l :: ls => (Ret l, mkWorld (fs w) (stdout w) ls (wire w) (ticks w))
  end.

(** [input(prompt)] *)
Definition input (prompt : str) : M str :=
  write_stdout prompt;; read_line.

(** [getpass.getpass(prompt)]: the prompt goes to the terminal, not to standard
    output, and the typed line is not echoed.  What the operator types for
    [input] and for [getpass] comes from the same sequence of lines. *)
Definition getpass (prompt : str) : M str := read_line.

Definition put_wire (e : wire_event) : M unit := λ w,
  (Ret tt, mkWorld (fs w) (stdout w) (stdin w) (wire w ++ [e]) (ticks w)).

(** [os.path.exists(path)] *)
Definition path_exists (p : str) : M bool := λ w,
  (Ret (bool_decide (is_Some (fs w !! p))), w).

Definition os_error (c : exn_class) (what : string) (p : str) : exn :=
  Exn c (lit what ++ py_repr p).

(** [with open(path, 'r') as f: f.read()] (also for ['rb']) *)
Definition read_file (p : str) : M str := λ w,
  match fs w !! p with
  | Some (File c m) =>
      if owner_readable m then (Ret c, w)
      else (Raise (os_error PermissionError "[Errno 13] Permission denied: " p), w)
  | Some Dir => (Raise (os_error IsADirectoryError "[Errno 21] Is a directory: " p), w)
  | None => (Raise (os_error FileNotFoundError "[Errno 2] No such file or directory: " p), w)
  end.

(** [os.chmod(path, mode)]; only the modes of files are tracked. *)
Definition chmod (p : str) (mode : N) : M unit := λ w,
  match fs w !! p with
  | Some (File c _) => (Ret tt, set_fs (<[p := File c mode]> (fs w)) w)
  | Some Dir => (Ret tt, w)
  | None => (Raise (os_error FileNotFoundError "[Errno 2] No such file or directory: " p), w)
  end.

Section Model.

Variable env : Env.

(** [with open(path, 'w') as f: f.write(text)]: an existing file is truncated
    and keeps its mode, a new one gets [0o666 & ~umask]. *)
Definition write_file (p : str) (text : str) : M unit := λ w,
  match fs w !! p with
  | Some (File _ m) =>
      if owner_writable m then (Ret tt, set_fs (<[p := File text m]> (fs w)) w)
      else (Raise (os_error PermissionError "[Errno 13] Permission denied: " p), w)
  | Some Dir => (Raise (os_error IsADirectoryError "[Errno 21] Is a directory: " p), w)
  | None =>
      if cwd_writable env
      then (Ret tt, set_fs (<[p := File text (N.ldiff mode_666 (umask env))]> (fs w)) w)
      else (Raise (os_error PermissionError "[Errno 13] Permission denied: " p), w)
  end.

(** [json.load(f)] on the file at [p] *)
Definition json_load (p : str) : M pyobj :=
  text ← read_file p;
  match json_loads env text with
  | inl e => raise e
  | inr o => mret o
  end.

(** [json.dump(obj, f, indent=n)] into the file at [p] *)
Definition json_dump (obj : dict) (p : str) (indent : nat) : M unit :=
  write_file p (json_dumps env indent obj).

(** [datetime.now()] *)
Definition datetime_now : M datetime := λ w,
  (Ret (clock env (ticks w)),
   mkWorld (fs w) (stdout w) (stdin w) (wire w) (S (ticks w))).

(** [with cm: body]: the exit step runs whether the body raised or not, and an
    exception of the exit step replaces the body's. *)
Definition with_block {A} (body : M A) (exit : M unit) : M A := λ w,
  match body w with
  | (r, w') =>
      match exit w' with
      | (Ret _, w'') => (r, w'')
      | (Raise e, w'') => (Raise e, w'')
      end
  end.

Fixpoint for_each {A} (f : A -> M unit) (l : list A) : M unit :=
  match l with
  | [] => mret tt
  | x :: l' => f x;; for_each f l'
  end.

(** [t.strftime("%Y-%m-%d %H:%M:%S")] *)
Definition pad (width : nat) (n : N) : str :=
  let d := lit (pretty n) in replicate (width - length d)%nat 48 ++ d.

Definition strftime (t : datetime) : str :=
  pad 4 (year t) ++ lit "-" ++ pad 2 (month t) ++ lit "-" ++ pad 2 (day t)
  ++ lit " " ++ pad 2 (hour t) ++ lit ":" ++ pad 2 (minute t) ++ lit ":"
  ++ pad 2 (second t).

(** An optional argument that is [None] or empty is falsy. *)
Definition truthy (o : option str) : option str :=
  match o with
  | Some (c :: s) => Some (c :: s)
  | _ => None
  end.

(** ** send_email.py *)

Record TrinityEmailSender := mkSender {
  config_file : str;
  config : pyobj
}.

Definition default_config_file : str := lit "email_config.json".

Definition default_config : dict :=
  [ (lit "smtp_server", VStr (lit "smtp.gmail.com"));
    (lit "smtp_port", VInt 587);
    (lit "sender_email", VStr (lit "your_email@gmail.com"));
    (lit "sender_password", VStr (lit "your_app_password"));
    (lit "default_recipient", VStr (lit "your_email@gmail.com")) ].

(** [load_config], lines 23-41.  No [os.chmod] follows the write. *)
Definition load_config (config_file : str) : M pyobj :=
  found ← path_exists config_file;
  if (found : bool) then json_load config_file
  else
    json_dump default_config config_file 4;;
    print (lit "Created default config file: " ++ config_file);;
    print (lit "Please edit it with your email settings!");;
    mret (PDict default_config).

(** [TrinityEmailSender(config_file)] *)
Definition TrinityEmailSender_init (config_file : str) : M TrinityEmailSender :=
  cfg ← load_config config_file;
  mret (mkSender config_file cfg).

(** [self.config.get(k)] *)
Definition config_get (c : pyobj) (k : str) : M value :=
  match c with
  | PDict d => mret (default VNone (dict_get k d))
  | PVal _ => raise (Exn AttributeError (lit "object has no attribute 'get'"))
  end.

(** [self.config[k]] *)
Definition config_item (c : pyobj) (k : str) : M value :=
  match c with
  | PDict d =>
      match dict_get k d with
      | Some v => mret v
      | None => raise (Exn KeyError (py_repr k))
      end
  | PVal _ => raise (Exn TypeError (lit "object is not subscriptable"))
  end.

Definition timestamp_suffix (timestamp : str) : str :=
  nl ++ nl ++ lit "Sent from Trinity at " ++ timestamp.

(** Lines 83-89: the guarded SMTP session.  [wire] records each call made on
    the connection, with the message handed to [sendmail]. *)
Definition smtp_session (self : TrinityEmailSender) (to_email : value)
    (msg : message) : M unit :=
  raise_if (tls_context (smtp env));;
  host ← config_item (config self) (lit "smtp_server");
  port ← config_item (config self) (lit "smtp_port");
  put_wire (Connect host port);;
  raise_if (connect (smtp env) host port);;
  with_block
    (put_wire StartTLS;;
     raise_if (starttls (smtp env));;
     user ← config_item (config self) (lit "sender_email");
     password ← config_item (config self) (lit "sender_password");
     put_wire (Login user password);;
     raise_if (login (smtp env) user password);;
     from_addr ← config_item (config self) (lit "sender_email");
     put_wire (SendMail from_addr to_email msg);;
     raise_if (sendmail (smtp env) from_addr to_email msg))
    (put_wire Quit;;
     raise_if (quit (smtp env))).

(** Lines 47-81: the recipient that is used and the message that is built. *)
Definition build_message (self : TrinityEmailSender) (to_email : option str)
    (subject body : str) (attachment_path html_body : option str)
    : M (value * message) :=
  to_email ← match truthy to_email with
             | Some t => mret (VStr t)
             | None => config_get (config self) (lit "default_recipient")
             end;
  sender ← config_item (config self) (lit "sender_email");
  now ← datetime_now;
  let timestamp := strftime now in
  let body_with_timestamp := body ++ timestamp_suffix timestamp in
  let parts := [TextPart (lit "plain") body_with_timestamp] in
  let parts := match truthy html_body with
               | Some h => parts ++ [TextPart (lit "html") h]
               | None => parts
               end in
  parts ← match truthy attachment_path with
          | Some p =>
              found ← path_exists p;
              if (found : bool) then
                payload ← read_file p;
                mret (parts ++ [AttachmentPart payload
                                  (lit "attachment; filename= " ++ basename p)])
              else mret parts
          | None => mret parts
          end;
  mret (to_email, Message sender to_email subject parts).

(** [send_email], lines 43-96: only the session, lines 83-92, is inside
    [try]. *)
Definition send_email (self : TrinityEmailSender) (to_email : option str)
    (subject body : str) (attachment_path html_body : option str) : M bool :=
  built ← build_message self to_email subject body attachment_path html_body;
  let to_email := fst built in
  try_except
    (smtp_session self to_email (snd built);;
     print (lit "✅ Email sent successfully to " ++ py_str to_email);;
     mret true)
    (λ e,
     print (lit "❌ Error sending email: " ++ exn_text e);;
     mret false).

Definition subjects : list (str * str) :=
  [ (lit "low", lit "🔔 Trinity Notification");
    (lit "normal", lit "📧 Trinity Alert");
    (lit "high", lit "🚨 Trinity Important Alert") ].

(** [send_notification], lines 98-107 *)
Definition send_notification (self : TrinityEmailSender) (message : str)
    (priority : str) : M bool :=
  let subject := default (default [] (dict_get (lit "normal") subjects))
                         (dict_get priority subjects) in
  send_email self None subject message None None.

(** [report_data]: a mapping (keys and values shown with [str]) or anything
    else. *)
Inductive report_data :=
| RDict (items : list (value * value))
| RVal (v : value).

Definition indent8 : str := lit "        ".

Definition html_entry (acc : str) (kv : value * value) : str :=
  acc ++ lit "<p><strong>" ++ py_str (fst kv) ++ lit ":</strong> "
      ++ py_str (snd kv) ++ lit "</p>".

Definition text_entry (acc : str) (kv : value * value) : str :=
  acc ++ py_str (fst kv) ++ lit ": " ++ py_str (snd kv) ++ nl.

Definition html_head (report_type generated : str) : str :=
  nl ++ indent8 ++ lit "<html>" ++ nl
     ++ indent8 ++ lit "<body>" ++ nl
     ++ indent8 ++ lit "<h2>Trinity " ++ report_type ++ lit "</h2>" ++ nl
     ++ indent8 ++ lit "<p><strong>Generated:</strong> " ++ generated
     ++ lit "</p>" ++ nl
     ++ indent8 ++ lit "<hr>" ++ nl
     ++ indent8.

Definition html_tail : str :=
  nl ++ indent8 ++ lit "<hr>" ++ nl
     ++ indent8 ++ lit "<p><em>Sent automatically by Trinity</em></p>" ++ nl
     ++ indent8 ++ lit "</body>" ++ nl
     ++ indent8 ++ lit "</html>" ++ nl
     ++ indent8.

Definition text_head (report_type : str) : str :=
  lit "Trinity " ++ report_type ++ nl ++ str_mul 61 50 ++ nl.

(** [send_report], lines 109-146: the HTML body, the text body, the call. *)
Definition report_html (data : report_data) (report_type generated : str) : str :=
  let html_body := html_head report_type generated in
  let html_body := match data with
                   | RDict items => fold_left html_entry items html_body
                   | RVal v => html_body ++ lit "<pre>" ++ py_str v ++ lit "</pre>"
                   end in
  html_body ++ html_tail.

Definition report_text (data : report_data) (report_type : str) : str :=
  let text_body := text_head report_type in
  match data with
  | RDict items => fold_left text_entry items text_body
  | RVal v => text_body ++ py_str v
  end.

Definition send_report (self : TrinityEmailSender) (data : report_data)
    (report_type : str) : M bool :=
  now ← datetime_now;
  let html_body := report_html data report_type (strftime now) in
  let text_body := report_text data report_type in
  send_email self None (lit "Trinity " ++ report_type) text_body None
             (Some html_body).

(** ** quick_email_setup.py *)

Definition quick_config : dict :=
  [ (lit "smtp_server", VStr (lit "smtp.gmail.com"));
    (lit "smtp_port", VInt 587);
    (lit "sender_email", VStr (lit "your_email@gmail.com"));
    (lit "sender_password", VStr (lit "your_app_password_here"));
    (lit "default_recipient", VStr (lit "your_email@gmail.com")) ].

Definition is_password_key (key : str) : bool :=
  contains (lit "password") (lower key).

(** What lines 34-37 print for one entry, without the line end. *)
Definition entry_line (kv : str * value) : str :=
  if is_password_key (fst kv)
  then lit "  " ++ fst kv ++ lit ": " ++ str_mul star (length (py_str (snd kv)))
  else lit "  " ++ fst kv ++ lit ": " ++ py_str (snd kv).

(** [create_email_config], lines 10-60 *)
Definition create_email_config : M pyobj :=
  print (lit "🚀 Trinity Quick Email Setup");;
  print (str_mul 61 40);;
  print (lit "Creating default Gmail configuration...");;
  print (lit "You can customize this later by editing email_config.json");;
  let config := quick_config in
  let config_file := lit "email_config.json" in
  found ← path_exists config_file;
  if (found : bool) then
    print (lit "⚠️  Configuration file " ++ config_file ++ lit " already exists!");;
    print (lit "Current configuration:");;
    existing_config ← json_load config_file;
    match existing_config with
    | PDict d =>
        for_each (λ kv, print (entry_line kv)) d;;
        mret existing_config
    | PVal _ => raise (Exn AttributeError (lit "object has no attribute 'items'"))
    end
  else
    json_dump config config_file 4;;
    chmod config_file mode_600;;
    print (nl ++ lit "✅ Configuration template saved to " ++ config_file);;
    print (lit "📁 File permissions set to secure (600)");;
    print (nl ++ lit "🔧 Next Steps:");;
    print (lit "1. Edit email_config.json and replace placeholders with your actual email settings");;
    print (lit "2. For Gmail users:");;
    print (lit "   - Use your Gmail address for sender_email");;
    print (lit "   - Generate an App Password at: https://myaccount.google.com/apppasswords");;
    print (lit "   - Use the App Password (not your regular password) for sender_password");;
    print (lit "3. Run: python3 send_email.py --test");;
    print (nl ++ lit "📝 Configuration format:");;
    print (json_dumps env 2 config);;
    mret (PDict config).

(** ** setup_email.py *)

Definition provider (host : string) : dict :=
  [ (lit "smtp_server", VStr (lit host)); (lit "smtp_port", VInt 587) ].

(** Lines 41-42: the custom SMTP branch. *)
Definition custom_smtp : M dict :=
  server ← input (lit "SMTP Server: ");
  port_field ← input (lit "SMTP Port (usually 587): ");
  let port_text := match strip port_field with
                   | [] => lit "587"
                   | c :: s => c :: s
                   end in
  match py_int port_text with
  | Some port =>
      mret [ (lit "smtp_server", VStr (strip server)); (lit "smtp_port", VInt port) ]
  | None =>
      raise (Exn ValueError
               (lit "invalid literal for int() with base 10: " ++ py_repr port_text))
  end.

Definition test_body : str :=
  lit "Congratulations! Your Trinity email configuration is working perfectly."
  ++ nl ++ nl
  ++ lit "You can now use Trinity to send emails, notifications, and reports.".

(** [setup_email_config], lines 11-77 *)
Definition setup_email_config : M unit :=
  print (lit "🚀 Trinity Email Configuration Setup");;
  print (str_mul 61 40);;
  print (nl ++ lit "Select your email provider:");;
  print (lit "1. Gmail");;
  print (lit "2. Outlook/Hotmail");;
  print (lit "3. Yahoo");;
  print (lit "4. Custom SMTP");;
  choice ← input (nl ++ lit "Enter choice (1-4): ");
  let choice := strip choice in
  config ← (if str_eqb choice (lit "1") then
              print (nl ++ lit "📧 Gmail selected");;
              print (lit "Note: You'll need to use an App Password, not your regular password");;
              print (lit "Generate one at: https://myaccount.google.com/apppasswords");;
              mret (provider "smtp.gmail.com")
            else if str_eqb choice (lit "2") then
              print (nl ++ lit "📧 Outlook selected");;
              mret (provider "smtp-mail.outlook.com")
            else if str_eqb choice (lit "3") then
              print (nl ++ lit "📧 Yahoo selected");;
              mret (provider "smtp.mail.yahoo.com")
            else custom_smtp);
  print (nl ++ lit "🔐 Enter your email credentials:");;
  sender_email ← input (lit "Your email address: ");
  let sender_email := strip sender_email in
  sender_password ← getpass (lit "Your password (or app password): ");
  default_recipient ← input (lit "Default recipient [" ++ sender_email ++ lit "]: ");
  let default_recipient := match strip default_recipient with
                           | [] => sender_email
                           | c :: s => c :: s
                           end in
  let config := config ++ [ (lit "sender_email", VStr sender_email);
                            (lit "sender_password", VStr sender_password);
                            (lit "default_recipient", VStr default_recipient) ] in
  let config_file := lit "email_config.json" in
  json_dump config config_file 4;;
  chmod config_file mode_600;;
  print (nl ++ lit "✅ Configuration saved to " ++ config_file);;
  print (lit "📁 File permissions set to secure (600)");;
  test ← input (nl ++ lit "Would you like to send a test email? (y/n): ");
  if str_eqb (lower (strip test)) (lit "y") then
    print (nl ++ lit "📤 Sending test email...");;
    sender ← TrinityEmailSender_init config_file;
    success ← send_email sender None (lit "🎉 Trinity Email Test") test_body None None;
    if (success : bool) then print (lit "🎊 Test email sent successfully!")
    else print (lit "❌ Test failed. Please check your configuration.")
  else mret tt.

(** ** send_email.py, the command line *)

(** The namespace [parser.parse_args()] returns (lines 149-159): an option
    that was not given is [None], the flag [--test] is a boolean, and
    [--priority] is one of [low], [normal], [high]. *)
Record Args := mkArgs {
  arg_to : option str;
  arg_subject : str;
  arg_body : str;
  arg_attachment : option str;
  arg_priority : str;
  arg_notification : option str;
  arg_test : bool
}.

Definition test_mail_body : str :=
  lit "This is a test email from Trinity. If you receive this, everything is working correctly!".

(** [main], lines 161-185, from the parsed arguments on. *)
Definition main (args : Args) : M unit :=
  sender ← TrinityEmailSender_init (lit "email_config.json");
  if arg_test args then
    success ← send_email sender None (lit "Trinity Email Test") test_mail_body
                None None;
    if (success : bool) then print (lit "🎉 Test email sent successfully!")
    else mret tt
  else
    match truthy (arg_notification args) with
    | Some notification =>
        send_notification sender notification (arg_priority args);;
        mret tt
    | None =>
        send_email sender (arg_to args) (arg_subject args) (arg_body args)
          (arg_attachment args) None;;
        mret tt
    end.

End Model.

(** ** A concrete environment

    The theorems below hold for every [Env].  To run the scripts on examples,
    [json.dumps] and [json.load] are given for the documents the scripts write:
    one object whose values are strings, integers, booleans or [null]. *)

Definition hex_digit (n : N) : N := if n <? 10 then 48 + n else 87 + n.

Definition hex4 (n : N) : str :=
  [ hex_digit (n / 4096 mod 16); hex_digit (n / 256 mod 16);
    hex_digit (n / 16 mod 16); hex_digit (n mod 16) ].

(** One character of a JSON string with [ensure_ascii=True]. *)
Definition json_escape (c : N) : str :=
  if c =? 34 then [92; 34]
  else if c =? 92 then lit "\\"
  else if c =? 10 then lit "\n"
  else if c =? 13 then lit "\r"
  else if c =? 9 then lit "\t"
  else if c =? 8 then lit "\b"
  else if c =? 12 then lit "\f"
  else if (32 <=? c) && (c <=? 126) then [c]
  else if c <? 65536 then lit "\u" ++ hex4 c
  else lit "\u" ++ hex4 (55296 + (c - 65536) / 1024)
       ++ lit "\u" ++ hex4 (56320 + (c - 65536) mod 1024).

Definition json_string_out (s : str) : str :=
  [34] ++ concat (map json_escape s) ++ [34].

Definition json_value_out (v : value) : str :=
  match v with
  | VNone => lit "null"
  | VBool true => lit "true"
  | VBool false => lit "false"
  | VInt z => lit (pretty z)
  | VStr s => json_string_out s
  | VObj shown => shown
  end.

Fixpoint join (sep : str) (l : list str) : str :=
  match l with
  | [] => []
  | [x] => x
  | x :: l' => x ++ sep ++ join sep l'
  end.

Definition dumps (indent : nat) (d : dict) : str :=
  match d with
  | [] => lit "{}"
  | _ =>
      let pad := replicate indent 32 in
      lit "{" ++ nl ++ pad
      ++ join (lit "," ++ nl ++ pad)
              (map (λ kv, json_string_out (fst kv) ++ lit ": " ++ json_value_out (snd kv)) d)
      ++ nl ++ lit "}"
  end.

Fixpoint skip_ws (s : str) : str :=
  match s with
  | c :: s' =>
      if (c =? 32) || (c =? 9) || (c =? 10) || (c =? 13) then skip_ws s' else s
  | [] => []
  end.

Definition hex_val (c : N) : option N :=
  if (48 <=? c) && (c <=? 57) then Some (c - 48)
  else if (97 <=? c) && (c <=? 102) then Some (c - 87)
  else if (65 <=? c) && (c <=? 70) then Some (c - 55)
  else None.

Definition simple_escape (e : N) : option N :=
  if e =? 34 then Some 34
  else if e =? 92 then Some 92
  else if e =? 47 then Some 47
  else if e =? 98 then Some 8
  else if e =? 102 then Some 12
  else if e =? 110 then Some 10
  else if e =? 114 then Some 13
  else if e =? 116 then Some 9
  else None.

(** A low surrogate right after a high one completes one code point. *)
Definition push_char (c : N) (acc : str) : str :=
  match acc with
  | h :: acc' =>
      if (55296 <=? h) && (h <=? 56319) && (56320 <=? c) && (c <=? 57343)
      then (65536 + (h - 55296) * 1024 + (c - 56320)) :: acc'
      else c :: acc
  | [] => [c]
  end.

(** The text after an opening quote: the string read (reversed in [acc]) and
    what follows the closing quote. *)
Fixpoint string_in (acc : str) (s : str) : option (str * str) :=
  match s with
  | [] => None
  | c :: rest =>
      if c =? 34 then Some (rev acc, rest)
      else if c =? 92 then
        match rest with
        | e :: rest' =>
            if e =? 117 then
              match rest' with
              | a :: b :: c' :: d :: rest'' =>
                  match hex_val a, hex_val b, hex_val c', hex_val d with
                  | Some x3, Some x2, Some x1, Some x0 =>
                      string_in (push_char (x3 * 4096 + x2 * 256 + x1 * 16 + x0) acc) rest''
                  | _, _, _, _ => None
                  end
              | _ => None
              end
            else
              match simple_escape e with
              | Some x => string_in (x :: acc) rest'
              | None => None
              end
        | [] => None
        end
      else if c <? 32 then None
      else string_in (c :: acc) rest
  end.

Fixpoint digits_in (acc : str) (s : str) : str * str :=
  match s with
  | c :: s' => if (48 <=? c) && (c <=? 57) then digits_in (c :: acc) s' else (rev acc, s)
  | [] => (rev acc, [])
  end.

Definition number_in (s : str) : option (value * str) :=
  let '(neg, s1) := match s with
                    | c :: s' => if c =? 45 then (true, s') else (false, s)
                    | [] => (false, s)
                    end in
  let '(ds, rest) := digits_in [] s1 in
  match ds, rest with
  | [], _ => None
  | d :: ds', r =>
      if (d =? 48) && negb (bool_decide (ds' = [])) then None
      else if match r with
              | c :: _ => (c =? 46) || (c =? 101) || (c =? 69)
              | [] => false
              end then None
      else match int_digits 0 false ds with
           | Some z => Some (VInt (if neg then - z else z)%Z, r)
           | None => None
           end
  end.

Definition value_in (s : str) : option (value * str) :=
  match s with
  | c :: rest =>
      if c =? 34 then
        match string_in [] rest with
        | Some (x, r) => Some (VStr x, r)
        | None => None
        end
      else if starts_with (lit "true") s then Some (VBool true, drop 4 s)
      else if starts_with (lit "false") s then Some (VBool false, drop 5 s)
      else if starts_with (lit "null") s then Some (VNone, drop 4 s)
      else number_in s
  | [] => None
  end.

(** [d[k] = v] *)
Fixpoint dict_set (k : str) (v : value) (d : dict) : dict :=
  match d with
  | [] => [(k, v)]
  | (k', v') :: d' => if str_eqb k k' then (k, v) :: d' else (k', v') :: dict_set k v d'
  end.

(** Members of an object, from the first key to the closing brace. *)
Fixpoint members_in (fuel : nat) (acc : dict) (s : str) : option (dict * str) :=
  match fuel with
  | O => None
  | S fuel' =>
      match skip_ws s with
      | c :: rest =>
          if c =? 34 then
            match string_in [] rest with
            | Some (k, r1) =>
                match skip_ws r1 with
                | c1 :: r2 =>
                    if c1 =? 58 then
                      match value_in (skip_ws r2) with
                      | Some (v, r3) =>
                          match skip_ws r3 with
                          | c2 :: r4 =>
                              if c2 =? 44 then members_in fuel' (dict_set k v acc) r4
                              else if c2 =? 125 then Some (dict_set k v acc, r4)
                              else None
                          | [] => None
                          end
                      | None => None
                      end
                    else None
                | [] => None
                end
            | None => None
            end
          else None
      | [] => None
      end
  end.

Definition json_decode_error : exn :=
  Exn (LibraryError (lit "JSONDecodeError")) (lit "Expecting value").

Definition document_in (s : str) : option (pyobj * str) :=
  match skip_ws s with
  | c :: rest =>
      if c =? 123 then
        match skip_ws rest with
        | c' :: rest' =>
            if c' =? 125 then Some (PDict [], rest')
            else match members_in (length rest) [] rest with
                 | Some (d, r) => Some (PDict d, r)
                 | None => None
                 end
        | [] => None
        end
      else match value_in (c :: rest) with
           | Some (v, r) => Some (PVal v, r)
           | None => None
           end
  | [] => None
  end.

(** Lists, floats and nested objects are outside this reader and are reported
    as undecodable. *)
Definition loads (s : str) : exn + pyobj :=
  match document_in s with
  | Some (o, r) =>
      match skip_ws r with
      | [] => inr o
      | _ :: _ => inl json_decode_error
      end
  | None => inl json_decode_error
  end.

Definition clock_from (t0 : datetime) (n : nat) : datetime :=
  mkDatetime (year t0) (month t0) (day t0) (hour t0) (minute t0)
             ((second t0 + N.of_nat n) mod 60).

Definition morning : datetime := mkDatetime 2024 1 15 9 30 0.

(** A relay that accepts everything. *)
Definition relay_ok : SmtpServer :=
  mkSmtp None (λ _ _, None) None (λ _ _, None) (λ _ _ _, None) None.

(** A host that refuses the connection. *)
Definition relay_unreachable : SmtpServer :=
  mkSmtp None
    (λ _ _, Some (Exn (LibraryError (lit "ConnectionRefusedError"))
                      (lit "[Errno 111] Connection refused")))
    None (λ _ _, None) (λ _ _ _, None) None.

(** A usual process: umask 0o022, a writable working directory. *)
Definition posix_env (relay : SmtpServer) : Env :=
  mkEnv 18 true (clock_from morning) loads dumps relay.

Definition fresh_world (typed : list str) : World := mkWorld ∅ [] typed [] 0.

Definition world_with (files : gmap (list N) node) : World :=
  mkWorld files [] [] [] 0.

(** ** Notions used in the statements *)

(** The messages handed to [sendmail], with their envelope recipient. *)
Definition sent (evs : list wire_event) : list (value * message) :=
  omap (λ e, match e with SendMail _ t m => Some (t, m) | _ => None end) evs.

Definition text_line (kv : value * value) : str :=
  py_str (fst kv) ++ lit ": " ++ py_str (snd kv) ++ nl.

Definition html_paragraph (kv : value * value) : str :=
  lit "<p><strong>" ++ py_str (fst kv) ++ lit ":</strong> " ++ py_str (snd kv)
  ++ lit "</p>".

(** The world after more events on the connection, and after one more line on
    standard output. *)
Definition add_wire (evs : list wire_event) (w : World) : World :=
  mkWorld (fs w) (stdout w) (stdin w) (wire w ++ evs) (ticks w).

Definition add_line (line : str) (w : World) : World :=
  mkWorld (fs w) (stdout w ++ [line ++ nl]) (stdin w) (wire w) (ticks w).

Definition tick (w : World) : World :=
  mkWorld (fs w) (stdout w) (stdin w) (wire w) (S (ticks w)).

Definition success_line (to_email : value) : str :=
  lit "✅ Email sent successfully to " ++ py_str to_email.

Definition error_line (e : exn) : str :=
  lit "❌ Error sending email: " ++ exn_text e.

(** The parts that do not depend on the file system. *)
Definition text_parts (body timestamp : str) (html_body : option str) : list part :=
  TextPart (lit "plain") (body ++ timestamp_suffix timestamp)
  :: match truthy html_body with
     | Some h => [TextPart (lit "html") h]
     | None => []
     end.


(** A sender over the placeholder configuration, one over an empty
    configuration file ([{}]), and a file system whose [/tmp] is a
    directory. *)
Definition placeholder_sender : TrinityEmailSender :=
  mkSender default_config_file (PDict default_config).





Definition add_chunks (chunks : list str) (w : World) : World :=
  mkWorld (fs w) (stdout w ++ chunks) (stdin w) (wire w) (ticks w).


(** No access beyond the owner: none of the group and other bits (0o077). *)
Definition owner_only (mode : N) : bool := N.land mode 63 =? 0.

(** A computation that leaves the file system alone whenever it starts from
    one that satisfies [P]. *)
Definition keeps_fs {A : Type} (P : gmap (list N) node -> Prop) (m : M A) : Prop :=
  ∀ w, P (fs w) -> fs (m w).2 = fs w.


(** Between two file systems: nothing changed, or the file at [p] was written
    and left with mode 0o600. *)
Definition writes_600 (p : str) (f f' : gmap (list N) node) : Prop :=
  f' = f ∨ ∃ c, f' = <[p := File c mode_600]> f.







(** The arguments with nothing given on the command line (the parser's
    defaults). *)
Definition no_args : Args :=
  mkArgs None (lit "Trinity Notification") (lit "Hello from Trinity!") None
         (lit "normal") None false.

(** Two command lines that ask for the same thing: both a test, or both the
    same notification with the same priority, or both the same regular
    mail. *)
Definition same_request (a b : Args) : Prop :=
  if arg_test a then arg_test b = true
  else
    arg_test b = false
    ∧ match truthy (arg_notification a) with
      | Some n =>
          truthy (arg_notification b) = Some n
          ∧ arg_priority a = arg_priority b
      | None =>
          truthy (arg_notification b) = None
          ∧ arg_to a = arg_to b
          ∧ arg_subject a = arg_subject b
          ∧ arg_body a = arg_body b
          ∧ arg_attachment a = arg_attachment b
      end.

(** [open(path, 'w')] will succeed: a file the owner may write, or no file in
    a writable directory. *)
Definition writable_target (env : Env) (f : gmap (list N) node) (p : str) : Prop :=
  match f !! p with
  | Some (File _ mode) => owner_writable mode = true
  | Some Dir => False
  | None => cwd_writable env = true
  end.

(** The three fixed providers of the interactive bootstrapper. *)
Definition providers : list (str * string) :=
  [ (lit "1", "smtp.gmail.com"%string);
    (lit "2", "smtp-mail.outlook.com"%string);
    (lit "3", "smtp.mail.yahoo.com"%string) ].

(** The recipient that is saved: the typed one, or the sender's address when
    the field is blank. *)
Definition saved_recipient (email recipient : str) : str :=
  match strip recipient with
  | [] => strip email
  | c :: s => c :: s
  end.

(** The session went through at every step. *)
Definition relay_accepts (env : Env) (host port user password to_addr : value)
    (msg : message) : Prop :=
  tls_context (smtp env) = None
  ∧ connect (smtp env) host port = None
  ∧ starttls (smtp env) = None
  ∧ login (smtp env) user password = None
  ∧ sendmail (smtp env) user to_addr msg = None
  ∧ quit (smtp env) = None.

(** A disk that holds a directory where the configuration file should be, and
    one that holds a file that is not JSON. *)
Definition garbled_world : World :=
  world_with {[ lit "email_config.json" := File (lit "not json") mode_600 ]}.

(** A disk with a readable file [/tmp/report.pdf]. *)
Definition report_world : World :=
  world_with {[ lit "/tmp/report.pdf" := File (lit "%PDF-1.4") 420 ]}.

(** An operator choosing Outlook, who leaves the recipient blank and declines
    the test, over a disk that holds an older configuration readable by
    everyone. *)
Definition typed_outlook : World :=
  mkWorld {[ lit "email_config.json" := File (lit "{}") 420 ]} []
    [ lit " 2 "; lit " me@example.com "; lit " hunter2 "; []; lit "n" ] [] 0.

(** The same operator asking for the test mail, on an empty disk. *)
Definition typed_outlook_test : World :=
  fresh_world [ lit "2"; lit "me@example.com"; lit "hunter2"; []; lit " Y " ].

(** * Properties *)

(** ** The model on small inputs *)

Example lit_ascii : lit "a b" = [97; 32; 98].
Proof. reflexivity. Qed.

Example lit_emoji : lit "🚨 T" = [128680; 32; 84].
Proof. reflexivity. Qed.

Example py_int_587 : py_int (lit " 5_87 ") = Some 587%Z.
Proof. reflexivity. Qed.

Example py_int_abc : py_int (lit "abc") = None.
Proof. reflexivity. Qed.

Example py_str_int : py_str (VInt (-587)) = lit "-587".
Proof. vm_compute. reflexivity. Qed.

Example loads_dumps_default : loads (dumps 4 default_config) = inr (PDict default_config).
Proof. vm_compute. reflexivity. Qed.

Example dumps_small :
  dumps 2 [(lit "a", VInt 1); (lit "b", VStr (lit "x"))]
  = lit "{" ++ nl ++ lit "  " ++ [34; 97; 34] ++ lit ": 1," ++ nl
    ++ lit "  " ++ [34; 98; 34] ++ lit ": " ++ [34; 120; 34] ++ nl ++ lit "}".
Proof. vm_compute. reflexivity. Qed.

Opaque lit.

Ltac by_computation :=
  cbv zeta; repeat match goal with |- _ ∧ _ => split end;
  vm_compute; reflexivity.

Lemma bind_eq {A B} (m : M A) (f : A -> M B) (w : World) :
  (m ≫= f) w =
  match m w with
  | (Ret a, w') => f a w'
  | (Raise e, w') => (Raise e, w')
  end.
Proof. reflexivity. Qed.

Ltac run_m :=
  unfold config_get, config_item, print, raise_if in *;
  unfold write_stdout, put_wire, path_exists, read_file, datetime_now,
    try_except, with_block, raise in *;
  unfold mbind, M_bind, mret, M_ret in *;
  simpl in *.

Lemma fold_text_entry (items : list (value * value)) (acc : list N) :
  fold_left text_entry items acc = acc ++ concat (map text_line items).
Proof.
  revert acc. induction items as [|kv items IH]; intros acc; simpl.
  - by rewrite app_nil_r.
  - rewrite IH. unfold text_entry, text_line. rewrite <- !app_assoc. done.
Qed.

Lemma fold_html_entry (items : list (value * value)) (acc : list N) :
  fold_left html_entry items acc = acc ++ concat (map html_paragraph items).
Proof.
  revert acc. induction items as [|kv items IH]; intros acc; simpl.
  - by rewrite app_nil_r.
  - rewrite IH. unfold html_entry, html_paragraph. rewrite <- !app_assoc. done.
Qed.

Lemma build_message_frame env self to subject body att html w r w' :
  build_message env self to subject body att html w = (r, w') ->
  fs w' = fs w ∧ stdout w' = stdout w ∧ stdin w' = stdin w ∧ wire w' = wire w.
Proof.
  unfold build_message. run_m. intros H.
  repeat case_match; simplify_eq; simpl; auto.
Qed.

Lemma add_wire_nil w : add_wire [] w = w.
Proof. destruct w. unfold add_wire. simpl. by rewrite app_nil_r. Qed.

Ltac session_done :=
  simpl; rewrite <- ?app_assoc; simpl;
  first [ exists []; eexists; split; [by rewrite add_wire_nil|]
        | eexists _, _; split; [reflexivity|] ];
  simpl; split; [by repeat constructor | done].

Lemma smtp_session_spec env self t msg w :
  ∃ evs r,
    smtp_session env self t msg w = (r, add_wire evs w)
    ∧ Forall (λ x, x = (t, msg)) (sent evs)
    ∧ (r = Ret tt -> sent evs = [(t, msg)]).
Proof.
  unfold smtp_session. run_m.
  destruct (tls_context (smtp env)); [session_done|].
  destruct (config self) as [d|]; [|session_done].
  destruct (dict_get (lit "smtp_server") d) as [host|]; [|session_done].
  destruct (dict_get (lit "smtp_port") d) as [port|]; [|session_done].
  simpl.
  destruct (connect (smtp env) host port); [session_done|].
  simpl.
  destruct (starttls (smtp env)), (quit (smtp env));
    try session_done;
    destruct (dict_get (lit "sender_email") d) as [user|]; try session_done;
    destruct (dict_get (lit "sender_password") d) as [password|]; try session_done;
    simpl;
    destruct (login (smtp env) user password); try session_done;
    simpl;
    destruct (sendmail (smtp env) user t msg); session_done.
Qed.

Lemma build_message_ret env self to subject body att html w t m w' :
  build_message env self to subject body att html w = (Ret (t, m), w') ->
  w' = tick w
  ∧ t = match truthy to with
        | Some x => VStr x
        | None =>
            match config self with
            | PDict d => default VNone (dict_get (lit "default_recipient") d)
            | PVal _ => VNone
            end
        end
  ∧ msg_to m = t
  ∧ msg_subject m = subject
  ∧ ∃ atts,
      msg_parts m = text_parts body (strftime (clock env (ticks w))) html ++ atts
      ∧ (atts = []
         ∨ ∃ p c mode,
             truthy att = Some p ∧ fs w !! p = Some (File c mode)
             ∧ atts = [AttachmentPart c (lit "attachment; filename= " ++ basename p)]).
Proof.
  unfold build_message, text_parts, tick. run_m. intros H.
  repeat case_match; simplify_eq; simpl.
  all: (split; [done|]); (split; [done|]); (split; [done|]); (split; [done|]).
  all: try (exists []; split; [by rewrite ?app_nil_r | by left]).
  all: eexists [_]; split; [done|]; right; eexists _, _, _; eauto.
Qed.


Lemma build_message_missing env self to subject body p html w :
  fs w !! p = None ->
  build_message env self to subject body (Some p) html w
  = build_message env self to subject body None html w.
Proof.
  intros Hp. unfold build_message. run_m.
  destruct p as [|c p]; [done|]. simpl.
  repeat case_match; simplify_eq; simpl in *; try done.
  all: rewrite Hp in *; done.
Qed.

Lemma send_email_unfold env self to subject body att html w :
  send_email env self to subject body att html w =
  match build_message env self to subject body att html w with
  | (Raise e, w1) => (Raise e, w1)
  | (Ret (t, m), w1) =>
      match smtp_session env self t m w1 with
      | (Ret _, w2) => (Ret true, add_line (success_line t) w2)
      | (Raise e, w2) => (Ret false, add_line (error_line e) w2)
      end
  end.
Proof.
  unfold send_email. rewrite bind_eq.
  destruct (build_message env self to subject body att html w) as [[[t m]|e] w1];
    [|done].
  unfold try_except. rewrite bind_eq. simpl.
  destruct (smtp_session env self t m w1) as [[[]|e] w2]; done.
Qed.



(** C7: when nothing exists at [attachment_path], [send_email] behaves exactly
    as if no attachment had been asked for (so the missing path alone never
    makes it fail), and the message it builds has no attachment part. *)
Theorem send_email_missing_attachment env self to subject body p html w :
  fs w !! p = None ->
  send_email env self to subject body (Some p) html w
  = send_email env self to subject body None html w
  ∧ ∀ t m w1,
      build_message env self to subject body (Some p) html w = (Ret (t, m), w1) ->
      Forall (λ x, is_attachment x = false) (msg_parts m).
Proof.
  intros Hp. split.
  - by rewrite !send_email_unfold, build_message_missing.
  - intros t m w1 Hb.
    destruct (build_message_ret _ _ _ _ _ _ _ _ _ _ _ Hb)
      as (_ & _ & _ & _ & atts & -> & [->|(q & c & mode & Hq & Hfile & _)]).
    + rewrite app_nil_r. unfold text_parts.
      destruct (truthy html); by repeat constructor.
    + exfalso. destruct p as [|c0 p]; simpl in Hq; by simplify_eq.
Qed.

(** C10: an empty [to_email] is treated as an omitted one: the call is the
    same as with [None], and the recipient used, in the envelope and in the
    [To] header, is the configuration's [default_recipient]. *)
Theorem send_email_falsy_recipient env self to subject body att html w d r :
  to = None ∨ to = Some [] ->
  config self = PDict d ->
  dict_get (lit "default_recipient") d = Some r ->
  send_email env self to subject body att html w
  = send_email env self None subject body att html w
  ∧ (∀ t m w1,
       build_message env self to subject body att html w = (Ret (t, m), w1) ->
       t = r ∧ msg_to m = r)
  ∧ ∃ evs,
      wire (send_email env self to subject body att html w).2 = wire w ++ evs
      ∧ Forall (λ tm, tm.1 = r ∧ msg_to tm.2 = r) (sent evs).
Proof.
  intros Hto Hd Hr.
  assert (truthy to = None) as Htruthy by (by destruct Hto as [->| ->]).
  assert (∀ t m w1,
            build_message env self to subject body att html w = (Ret (t, m), w1) ->
            t = r ∧ msg_to m = r) as Hbuilt.
  { intros t m w1 Hb.
    destruct (build_message_ret _ _ _ _ _ _ _ _ _ _ _ Hb) as (_ & Ht & Hm & _).
    rewrite Htruthy, Hd, Hr in Ht. simpl in Ht. by subst. }
  split; [by destruct Hto as [->| ->]|].
  split; [exact Hbuilt|].
  rewrite send_email_unfold.
  destruct (build_message env self to subject body att html w)
    as [[[t m]|e] w1] eqn:Hb.
  - destruct (Hbuilt _ _ _ eq_refl) as [Ht Hm].
    pose proof (build_message_frame _ _ _ _ _ _ _ _ _ _ Hb) as (_ & _ & _ & Hw).
    destruct (smtp_session_spec env self t m w1) as (evs & res & Hs & Hall & _).
    rewrite Hs. exists evs. split.
    + destruct res as [[]|]; simpl; by rewrite Hw.
    + eapply Forall_impl; [exact Hall|]. by intros tm ->.
  - apply build_message_frame in Hb as (_ & _ & _ & Hw).
    exists []. simpl. by rewrite Hw, app_nil_r.
Qed.


(** C8: for the three priorities, [send_notification] is [send_email] with the
    priority's fixed subject line and the message as body (default recipient,
    no attachment, no HTML part). *)
Theorem send_notification_delegates (env : Env) (self : TrinityEmailSender)
    (message : list N) :
  send_notification env self message (lit "low")
  = send_email env self None (lit "🔔 Trinity Notification") message None None
  ∧ send_notification env self message (lit "normal")
    = send_email env self None (lit "📧 Trinity Alert") message None None
  ∧ send_notification env self message (lit "high")
    = send_email env self None (lit "🚨 Trinity Important Alert") message None None.
Proof.
  unfold send_notification.
  split; [|split]; f_equal; vm_compute; reflexivity.
Qed.

(** C9: for a mapping, the text body is the heading followed by one line
    "key: value" per entry and the HTML body holds one <p> paragraph per
    entry, both in the mapping's iteration order; anything else is shown
    whole with [str].  [send_report] hands both bodies to [send_email]. *)
Theorem send_report_renderings env self items v report_type w :
  let generated := strftime (clock env (ticks w)) in
  report_text (RDict items) report_type
  = text_head report_type ++ concat (map text_line items)
  ∧ report_html (RDict items) report_type generated
    = html_head report_type generated ++ concat (map html_paragraph items)
      ++ html_tail
  ∧ report_text (RVal v) report_type = text_head report_type ++ py_str v
  ∧ report_html (RVal v) report_type generated
    = html_head report_type generated ++ lit "<pre>" ++ py_str v ++ lit "</pre>"
      ++ html_tail
  ∧ ∀ data,
      send_report env self data report_type w
      = send_email env self None (lit "Trinity " ++ report_type)
          (report_text data report_type) None
          (Some (report_html data report_type generated)) (tick w).
Proof.
  simpl. unfold report_text, report_html.
  rewrite fold_text_entry, fold_html_entry, <- !app_assoc.
  repeat split; reflexivity.
Qed.

Lemma print_eq s w : print s w = (Ret tt, add_chunks [s ++ nl] w).
Proof. reflexivity. Qed.

Lemma path_exists_eq p w :
  path_exists p w = (Ret (bool_decide (is_Some (fs w !! p))), w).
Proof. reflexivity. Qed.

Lemma fs_add_chunks c w : fs (add_chunks c w) = fs w.
Proof. reflexivity. Qed.

Lemma add_chunks_twice c1 c2 w :
  add_chunks c2 (add_chunks c1 w) = add_chunks (c1 ++ c2) w.
Proof. unfold add_chunks. simpl. by rewrite app_assoc. Qed.

Lemma add_chunks_nil w : add_chunks [] w = w.
Proof. destruct w. unfold add_chunks. simpl. by rewrite app_nil_r. Qed.

Ltac print_step := rewrite bind_eq, print_eq; cbv beta iota.

Lemma for_each_print {A} (f : A -> list N) (l : list A) (w : World) :
  for_each (λ x, print (f x)) l w
  = (Ret tt, add_chunks (map (λ x, f x ++ nl) l) w).
Proof.
  revert w. induction l as [|x l IH]; intros w.
  - by rewrite add_chunks_nil.
  - cbn [for_each map]. print_step. by rewrite IH, add_chunks_twice.
Qed.









(** ** The non-interactive bootstrapper and the file system *)

Lemma create_email_config_keeps_existing env w n :
  fs w !! lit "email_config.json" = Some n ->
  fs (create_email_config env w).2 = fs w.
Proof.
  intros Hn. unfold create_email_config.
  do 4 print_step.
  rewrite bind_eq, path_exists_eq. cbv beta iota.
  rewrite !fs_add_chunks, Hn, bool_decide_eq_true_2 by eauto.
  do 2 print_step.
  rewrite bind_eq. unfold json_load. rewrite bind_eq. unfold read_file.
  rewrite !fs_add_chunks, Hn.
  destruct n as [c mode|]; [destruct (owner_readable mode)|]; try reflexivity.
  destruct (json_loads env c) as [e|[d|v]]; try reflexivity.
  unfold mret, M_ret. cbv beta iota.
  rewrite bind_eq, for_each_print. reflexivity.
Qed.

Lemma create_email_config_fresh env w :
  fs w !! lit "email_config.json" = None ->
  fs (create_email_config env w).2
  = if cwd_writable env
    then <[lit "email_config.json" :=
             File (json_dumps env 4 quick_config) mode_600]> (fs w)
    else fs w.
Proof.
  intros Hn. unfold create_email_config.
  do 4 print_step.
  rewrite bind_eq, path_exists_eq. cbv beta iota.
  rewrite !fs_add_chunks, Hn, bool_decide_eq_false_2 by (by intros [? ?]).
  rewrite bind_eq. unfold json_dump, write_file.
  rewrite !fs_add_chunks, Hn.
  destruct (cwd_writable env); [|reflexivity].
  rewrite bind_eq. unfold chmod, set_fs. cbn [fs].
  rewrite lookup_insert_eq, insert_insert_eq.
  do 11 print_step. reflexivity.
Qed.

(** C6: a second run of [create_email_config] never changes what the first
    run left on disk, and a run that finds a configuration file leaves the
    file system, hence the file, as it is. *)
Theorem create_email_config_idempotent env w :
  let w1 := (create_email_config env w).2 in
  let w2 := (create_email_config env w1).2 in
  fs w2 = fs w1
  ∧ fs w2 !! lit "email_config.json" = fs w1 !! lit "email_config.json"
  ∧ (fs w !! lit "email_config.json" = None ∨ fs w1 = fs w).
Proof.
  cbv zeta.
  assert (∀ v, fs (create_email_config env v).2 !! lit "email_config.json" = None
               ∨ ∃ n, fs (create_email_config env v).2 !! lit "email_config.json"
                      = Some n) as Hcases.
  { intros v. destruct (fs _ !! _); eauto. }
  assert (fs (create_email_config env (create_email_config env w).2).2
          = fs (create_email_config env w).2) as Hsame.
  { destruct (Hcases w) as [Hnone|[n Hn]].
    - rewrite (create_email_config_fresh env _ Hnone).
      destruct (cwd_writable env) eqn:Hcwd; [|done].
      exfalso. destruct (fs w !! lit "email_config.json") as [n|] eqn:Hw.
      + rewrite (create_email_config_keeps_existing env w n Hw) in Hnone.
        by rewrite Hw in Hnone.
      + rewrite (create_email_config_fresh env w Hw), Hcwd in Hnone.
        by rewrite lookup_insert_eq in Hnone.
    - by apply (create_email_config_keeps_existing env _ n). }
  split; [exact Hsame|]. split; [by rewrite Hsame|].
  destruct (fs w !! lit "email_config.json") as [n|] eqn:Hw; [right|by left].
  by apply (create_email_config_keeps_existing env w n).
Qed.

(** ** Permission bits of the configuration file *)

Lemma create_email_config_mode env w :
  fs w !! lit "email_config.json" = None ->
  cwd_writable env = true ->
  ∃ c, fs (create_email_config env w).2 !! lit "email_config.json"
       = Some (File c mode_600)
       ∧ owner_only mode_600 = true.
Proof.
  intros Hn Hcwd. rewrite (create_email_config_fresh env w Hn), Hcwd.
  eexists. by rewrite lookup_insert_eq.
Qed.

Lemma load_config_fresh env p w :
  fs w !! p = None ->
  cwd_writable env = true ->
  fs (load_config env p w).2 !! p
  = Some (File (json_dumps env 4 default_config)
               (N.ldiff mode_666 (umask env))).
Proof.
  intros Hn Hcwd. unfold load_config.
  rewrite bind_eq, path_exists_eq. cbv beta iota.
  rewrite Hn, bool_decide_eq_false_2 by (by intros [? ?]).
  rewrite bind_eq. unfold json_dump, write_file. rewrite Hn, Hcwd.
  do 2 print_step. unfold mret, M_ret. cbn [snd].
  rewrite !fs_add_chunks. unfold set_fs. cbn [fs].
  by rewrite lookup_insert_eq.
Qed.

(** ** Computations that leave the file system alone *)

Section Keeps.

Context {P : gmap (list N) node -> Prop}.

Lemma keeps_bind {A B} (m : M A) (f : A -> M B) :
  keeps_fs P m -> (∀ a, keeps_fs P (f a)) -> keeps_fs P (m ≫= f).
Proof.
  intros Hm Hf w HP. rewrite bind_eq. specialize (Hm w HP).
  destruct (m w) as [[a|e] w']; cbn [snd] in *; [|done].
  rewrite <- Hm. apply Hf. by rewrite Hm.
Qed.

Lemma keeps_mret {A} (a : A) : keeps_fs P (mret a).
Proof. by intros w _. Qed.

Lemma keeps_raise {A} (e : exn) : keeps_fs P (raise (A:=A) e).
Proof. by intros w _. Qed.

Lemma keeps_print s : keeps_fs P (print s).
Proof. by intros w _. Qed.

Lemma keeps_read_line : keeps_fs P read_line.
Proof. intros w _. unfold read_line. by destruct (stdin w). Qed.

Lemma keeps_input s : keeps_fs P (input s).
Proof.
  unfold input. apply keeps_bind; [by intros w _|].
  intros _. apply keeps_read_line.
Qed.

Lemma keeps_getpass s : keeps_fs P (getpass s).
Proof. apply keeps_read_line. Qed.

Lemma keeps_read_file p : keeps_fs P (read_file p).
Proof.
  intros w _. unfold read_file.
  destruct (fs w !! p) as [[c mode|]|]; [destruct (owner_readable mode)| |]; done.
Qed.

Lemma keeps_json_load env p : keeps_fs P (json_load env p).
Proof.
  unfold json_load. apply keeps_bind; [apply keeps_read_file|].
  intros text. destruct (json_loads env text); [apply keeps_raise|apply keeps_mret].
Qed.

Lemma keeps_custom_smtp : keeps_fs P custom_smtp.
Proof.
  unfold custom_smtp.
  apply keeps_bind; [apply keeps_input|]. intros server.
  apply keeps_bind; [apply keeps_input|]. intros port_field.
  destruct (py_int _); [apply keeps_mret|apply keeps_raise].
Qed.

Lemma keeps_send_email env self to subject body att html :
  keeps_fs P (send_email env self to subject body att html).
Proof.
  intros w _. rewrite send_email_unfold.
  destruct (build_message env self to subject body att html w)
    as [[[t m]|e] w1] eqn:Hb;
    apply build_message_frame in Hb as (Hfs & _); [|done].
  destruct (smtp_session_spec env self t m w1) as (evs & r & -> & _).
  by destruct r as [[]|].
Qed.

End Keeps.

Lemma keeps_load_config env p :
  keeps_fs (λ f, is_Some (f !! p)) (load_config env p).
Proof.
  intros w Hp. unfold load_config.
  rewrite bind_eq, path_exists_eq. cbv beta iota.
  rewrite bool_decide_eq_true_2 by done.
  by apply (keeps_json_load (P:=λ _, True)).
Qed.

Global Instance writes_600_refl p : Reflexive (writes_600 p).
Proof. intros f. by left. Qed.

Lemma bind_keeps_then {A B} (m : M A) (f : A -> M B)
    (R : relation (gmap (list N) node)) `{!Reflexive R} :
  keeps_fs (λ _, True) m ->
  (∀ a w, R (fs w) (fs (f a w).2)) ->
  ∀ w, R (fs w) (fs ((m ≫= f) w).2).
Proof.
  intros Hm Hf w. rewrite bind_eq. specialize (Hm w I).
  destruct (m w) as [[a|e] w']; cbn [snd] in *.
  - rewrite <- Hm. apply Hf.
  - by rewrite Hm.
Qed.

Lemma write_chmod_then {A} env d p (rest : M A) w :
  keeps_fs (λ f, is_Some (f !! p)) rest ->
  writes_600 p (fs w) (fs ((json_dump env d p 4;; chmod p mode_600;; rest) w).2).
Proof.
  intros Hrest. rewrite bind_eq. unfold json_dump, write_file.
  assert (∀ text m0 v,
            fs v = <[p := File text m0]> (fs w) ->
            writes_600 p (fs w) (fs ((chmod p mode_600;; rest) v).2)) as Hgo.
  { intros text m0 v Hv. rewrite bind_eq. unfold chmod.
    rewrite Hv, lookup_insert_eq, insert_insert_eq.
    right. exists text. rewrite Hrest; unfold set_fs; cbn [fs]; [done|].
    rewrite lookup_insert_eq. eauto. }
  destruct (fs w !! p) as [[c m0|]|];
    [destruct (owner_writable m0)| |destruct (cwd_writable env)];
    try (by left); by eapply Hgo.
Qed.

(** The interactive bootstrapper changes nothing on disk, or writes the
    configuration file and leaves it with mode 0o600. *)
Lemma setup_email_config_mode env w :
  writes_600 (lit "email_config.json") (fs w) (fs (setup_email_config env w).2).
Proof.
  revert w. unfold setup_email_config.
  do 7 (apply bind_keeps_then; [apply _|apply keeps_print|intros _]).
  apply bind_keeps_then; [apply _|apply keeps_input|intros choice].
  apply bind_keeps_then; [apply _| |intros config].
  { repeat case_match;
      repeat first [ apply keeps_custom_smtp | apply keeps_mret
                   | apply keeps_bind; [apply keeps_print|intros _] ]. }
  apply bind_keeps_then; [apply _|apply keeps_print|intros _].
  apply bind_keeps_then; [apply _|apply keeps_input|intros sender_email].
  apply bind_keeps_then; [apply _|apply keeps_getpass|intros sender_password].
  apply bind_keeps_then; [apply _|apply keeps_input|intros default_recipient].
  intros w. apply write_chmod_then.
  do 2 (apply keeps_bind; [apply keeps_print|intros _]).
  apply keeps_bind; [apply keeps_input|intros test].
  case_match; [|apply keeps_mret].
  apply keeps_bind; [apply keeps_print|intros _].
  apply keeps_bind.
  { unfold TrinityEmailSender_init.
    apply keeps_bind; [apply keeps_load_config|intros cfg; apply keeps_mret]. }
  intros sender.
  apply keeps_bind; [apply keeps_send_email|intros success].
  destruct success; apply keeps_print.
Qed.

(** ** Running the interactive bootstrapper on typed lines *)












(** ** Instances and counterexamples *)



(** C2 fails on the Sender: with the usual umask 0o022 and no configuration
    file, constructing [TrinityEmailSender] writes [email_config.json] and
    leaves it with mode 0o644, readable by group and others; there is no
    [chmod] on this path. *)
Theorem sender_default_config_mode :
  let out := TrinityEmailSender_init (posix_env relay_ok) default_config_file
               (fresh_world []) in
  out.1 = Ret placeholder_sender
  ∧ fs out.2 !! default_config_file = Some (File (dumps 4 default_config) 420)
  ∧ owner_only 420 = false
  ∧ owner_only mode_600 = true.
Proof. by_computation. Qed.





Lemma send_email_missing_attachment_witness :
  fs (fresh_world []) !! lit "/tmp/report.pdf" = None
  ∧ send_email (posix_env relay_ok) placeholder_sender None (lit "Hi")
      (lit "Hello") (Some (lit "/tmp/report.pdf")) None (fresh_world [])
    = send_email (posix_env relay_ok) placeholder_sender None (lit "Hi")
        (lit "Hello") None None (fresh_world []).
Proof.
  assert (fs (fresh_world []) !! lit "/tmp/report.pdf" = None) as Hmissing
    by (vm_compute; reflexivity).
  split; [exact Hmissing|].
  exact (proj1 (send_email_missing_attachment (posix_env relay_ok)
                  placeholder_sender None (lit "Hi") (lit "Hello")
                  (lit "/tmp/report.pdf") None (fresh_world []) Hmissing)).
Defined.

Lemma send_email_falsy_recipient_witness :
  send_email (posix_env relay_ok) placeholder_sender (Some []) (lit "Hi")
    (lit "Hello") None None (fresh_world [])
  = send_email (posix_env relay_ok) placeholder_sender None (lit "Hi")
      (lit "Hello") None None (fresh_world []).
Proof.
  refine (proj1 (send_email_falsy_recipient (posix_env relay_ok)
                   placeholder_sender (Some []) (lit "Hi") (lit "Hello") None None
                   (fresh_world []) default_config
                   (VStr (lit "your_email@gmail.com")) _ _ _)).
  - right. reflexivity.
  - reflexivity.
  - vm_compute. reflexivity.
Defined.

(** ** The scenarios of the specification *)

(** An unreachable host: [False], one error line, nothing raised. *)
Example unreachable_host :
  let out := send_email (posix_env relay_unreachable) placeholder_sender
               (Some (lit "a@b.com")) (lit "Hi") (lit "Hello") None None
               (fresh_world []) in
  out.1 = Ret false
  ∧ stdout out.2
    = [lit "❌ Error sending email: [Errno 111] Connection refused" ++ nl]
  ∧ sent (wire out.2) = [].
Proof. by_computation. Qed.

Example notification_high :
  let out := send_notification (posix_env relay_ok) placeholder_sender
               (lit "Disk full") (lit "high") (fresh_world []) in
  out.1 = Ret true
  ∧ sent (wire out.2)
    = [ (VStr (lit "your_email@gmail.com"),
         Message (VStr (lit "your_email@gmail.com"))
                 (VStr (lit "your_email@gmail.com"))
                 (lit "🚨 Trinity Important Alert")
                 [TextPart (lit "plain")
                    (lit "Disk full" ++ nl ++ nl
                     ++ lit "Sent from Trinity at 2024-01-15 09:30:00")]) ].
Proof. by_computation. Qed.

Example system_report :
  report_text (RDict [ (VStr (lit "cpu"), VStr (lit "80%"));
                       (VStr (lit "mem"), VStr (lit "40%")) ])
              (lit "System Report")
  = lit "Trinity System Report" ++ nl ++ str_mul 61 50 ++ nl
    ++ lit "cpu: 80%" ++ nl ++ lit "mem: 40%" ++ nl.
Proof. vm_compute. reflexivity. Qed.

Example second_run_masks :
  let w1 := (create_email_config (posix_env relay_ok) (fresh_world [])).2 in
  let out := create_email_config (posix_env relay_ok) w1 in
  out.1 = Ret (PDict quick_config)
  ∧ fs out.2 = fs w1
  ∧ drop (length (stdout w1) + 6) (stdout out.2)
    = [ lit "  smtp_server: smtp.gmail.com" ++ nl;
        lit "  smtp_port: 587" ++ nl;
        lit "  sender_email: your_email@gmail.com" ++ nl;
        lit "  sender_password: **********************" ++ nl;
        lit "  default_recipient: your_email@gmail.com" ++ nl ].
Proof. by_computation. Qed.
